(** * Newsletter sender: a shallow embedding of [marketing/maketing.py]

    The script reads an HTML template, builds a two-part message for one
    recipient, submits it over an authenticated SMTP session, and repeats
    this for every address of a module-level list while counting the
    outcomes.

    The model is a state-and-exception monad over a [world] that holds the
    module globals, the history of calls made to the outside (file system,
    [email.mime], [smtplib]) together with their replies, and the lines
    written to standard output.  The outside is an arbitrary function
    [env] from the history so far and the call being made to a reply, so a
    theorem stated for every [env] covers every behaviour of those
    libraries. *)

From Stdlib Require Import String Ascii List ZArith Lia Bool DecimalString.
From ExtLib Require Import Structures.Monad Structures.MonadExc.
Import ListNotations.
Import MonadNotation.
Local Open Scope string_scope.
Local Open Scope list_scope.
Local Open Scope Z_scope.
Local Open Scope monad_scope.

(* ===================================================================== *)
(** ** Exceptions *)
(* ===================================================================== *)

(** The classes of the errors the script's library calls raise, with the
    inheritance of the Python standard library.  Every one of them derives
    from [Exception]; [KeyboardInterrupt] and [SystemExit], which are
    delivered to the process rather than raised by a call, are not
    modelled.  [OtherException] stands for any further class deriving
    directly from [Exception]. *)
Inductive exc_class : Type :=
| Exception
| OSError
| FileNotFoundError
| PermissionError
| IsADirectoryError
| ConnectionError
| ConnectionRefusedError
| TimeoutError
| ValueError
| UnicodeError
| UnicodeDecodeError
| UnicodeEncodeError
| TypeError
| SMTPException
| SMTPServerDisconnected
| SMTPNotSupportedError
| SMTPRecipientsRefused
| SMTPResponseException
| SMTPSenderRefused
| SMTPDataError
| SMTPConnectError
| SMTPHeloError
| SMTPAuthenticationError
| OtherException.

Scheme Equality for exc_class.

(** The direct base class; [Exception] is the root of the model. *)
Definition base (c : exc_class) : option exc_class :=
  match c with
  | Exception => None
  | OSError | ValueError | TypeError | OtherException => Some Exception
  | FileNotFoundError | PermissionError | IsADirectoryError
  | ConnectionError | TimeoutError | SMTPException => Some OSError
  | ConnectionRefusedError => Some ConnectionError
  | UnicodeError => Some ValueError
  | UnicodeDecodeError | UnicodeEncodeError => Some UnicodeError
  | SMTPServerDisconnected | SMTPNotSupportedError | SMTPRecipientsRefused
  | SMTPResponseException => Some SMTPException
  | SMTPSenderRefused | SMTPDataError | SMTPConnectError | SMTPHeloError
  | SMTPAuthenticationError => Some SMTPResponseException
  end.

(** [issubclass_upto n c d]: [d] is [c] or one of its first [n] ancestors. *)
Fixpoint issubclass_upto (n : nat) (c d : exc_class) : bool :=
  exc_class_beq c d ||
  match n with
  | O => false
  | S n' => match base c with
            | Some b => issubclass_upto n' b d
            | None => false
            end
  end.

(** No class of the model is more than four steps below [Exception]. *)
Definition issubclass (c d : exc_class) : bool := issubclass_upto 4 c d.

(** A raised exception: its class and the text [str(e)] yields. *)
Record exn : Type := mk_exn { exn_class : exc_class; exn_str : string }.

Definition isinstance (e : exn) (c : exc_class) : bool :=
  issubclass (exn_class e) c.

(* ===================================================================== *)
(** ** Messages *)
(* ===================================================================== *)

(** [MIMEText(_text, _subtype)]. *)
Record mime_part : Type := MIMEText { payload : string; subtype : string }.

(** A [MIMEMultipart] object: its subtype, the header fields in the order
    they were set, and the attached parts in the order of attachment. *)
Record message : Type := mk_message {
  multipart_subtype : string;
  headers : list (string * string);
  parts : list mime_part
}.

(** [MIMEMultipart(sub)]: the constructor of [email.mime] sets the fields
    [Content-Type] and [MIME-Version] before the script sets its own. *)
Definition MIMEMultipart (sub : string) : message :=
  {| multipart_subtype := sub;
     headers := [ ("Content-Type", ("multipart/" ++ sub)%string);
                  ("MIME-Version", "1.0") ];
     parts := [] |}.

(** [msg[name] = value] appends a header field. *)
Definition setitem (m : message) (name value : string) : message :=
  {| multipart_subtype := multipart_subtype m;
     headers := headers m ++ [(name, value)];
     parts := parts m |}.

(** [msg.attach(p)] appends a part. *)
Definition attach (m : message) (p : mime_part) : message :=
  {| multipart_subtype := multipart_subtype m;
     headers := headers m;
     parts := parts m ++ [p] |}.

(* ===================================================================== *)
(** ** The world *)
(* ===================================================================== *)

(** The module-level names of the script (lines 7-13).  The theorems hold
    for every value of them. *)
Record module_globals : Type := mk_globals {
  email : string;
  password : string;
  emailList : list string;
  subject : string;
  from_name : string
}.

(** The calls the script makes to the outside. *)
Inductive call : Type :=
| FsOpen (path : string)                 (* open(html_file, 'r', encoding='utf-8') *)
| FsRead                                 (* file.read() *)
| FsClose                                (* leaving the with block *)
| MimeMultipart (sub : string)           (* MIMEMultipart('alternative') *)
| MimeSetItem (name value : string)      (* msg[name] = value *)
| MimeText (text sub : string)           (* MIMEText(text, sub) *)
| MimeAttach (p : mime_part)             (* msg.attach(p) *)
| SmtpConnect (host : string) (port : Z) (* smtplib.SMTP(host, port) *)
| SmtpStarttls                           (* server.starttls() *)
| SmtpLogin (user secret : string)       (* server.login(user, secret) *)
| SmtpSendMessage (m : message)          (* server.send_message(msg) *)
| SmtpQuit.                              (* server.quit() *)

(** A call either returns or raises.  The script uses the returned value
    of [file.read()] only; for the other calls [Returned] carries a value
    that is discarded. *)
Inductive reply : Type :=
| Returned (v : string)
| Raised (e : exn).

(** What the history records: the calls with their replies and, as a call
    log of the script's own function, each entry into [send_newsletter]
    with its argument. *)
Inductive event : Type :=
| Invoked (recipient_email : string)
| Called (c : call) (r : reply).

Record world : Type := mk_world {
  globals : module_globals;
  history : list event;
  stdout : list string
}.

Definition environment : Type := list event -> call -> reply.

(* ===================================================================== *)
(** ** The monad *)
(* ===================================================================== *)

Inductive result (A : Type) : Type :=
| Return (a : A)
| Raise (e : exn).
Arguments Return {A} a.
Arguments Raise {A} e.

(** A computation runs in a world and ends, returning or raising, in a
    world; the world reached when an exception is raised is kept. *)
Definition M (A : Type) : Type := world -> result A * world.

#[export] Instance Monad_M : Monad M := {|
  ret := fun A (a : A) w => (Return a, w);
  bind := fun A B (m : M A) (k : A -> M B) w =>
            match m w with
            | (Return a, w') => k a w'
            | (Raise e, w') => (Raise e, w')
            end
|}.

#[export] Instance MonadExc_M : MonadExc exn M := {|
  raise := fun A (e : exn) w => (Raise e, w);
  catch := fun A (m : M A) (h : exn -> M A) w =>
             match m w with
             | (Return a, w') => (Return a, w')
             | (Raise e, w') => h e w'
             end
|}.

(** The clauses of a [try] statement, in source order. *)
Definition handlers (A : Type) : Type := list (exc_class * (exn -> M A)).

Fixpoint dispatch {A : Type} (hs : handlers A) (e : exn) : M A :=
  match hs with
  | [] => raise e
  | (c, h) :: hs' => if isinstance e c then h e else dispatch hs' e
  end.

(** [try: body except c1: h1 except c2: h2 ...]: the first clause whose
    class the exception is an instance of handles it; with none, the
    exception propagates. *)
Definition try_except {A : Type} (body : M A) (hs : handlers A) : M A :=
  catch body (dispatch hs).

(** Reading a module-level name. *)
Definition read_global {A : Type} (f : module_globals -> A) : M A :=
  fun w => (Return (f (globals w)), w).

(** [print(s)]: one more line on standard output.  Writing to standard
    output is taken to succeed. *)
Definition print (s : string) : M unit :=
  fun w => (Return tt,
            {| globals := globals w; history := history w;
               stdout := stdout w ++ [s] |}).

Definition log_event (ev : event) (w : world) : world :=
  {| globals := globals w; history := history w ++ [ev]; stdout := stdout w |}.

(** The call log: [send_newsletter] was entered with this argument. *)
Definition enter (recipient_email : string) : M unit :=
  fun w => (Return tt, log_event (Invoked recipient_email) w).

(** ** Strings *)

(** [s * n] on strings. *)
Fixpoint str_mul (s : string) (n : nat) : string :=
  match n with
  | O => ""
  | S n' => s ++ str_mul s n'
  end.

(** [str(n)] on integers. *)
Definition str_of_int (n : Z) : string := NilZero.string_of_int (Z.to_int n).

Fixpoint ends_with_slash (s : string) : bool :=
  match s with
  | EmptyString => false
  | String c EmptyString => Ascii.eqb c "/"
  | String _ s' => ends_with_slash s'
  end.

(** [os.path.join(a, b)] of [posixpath] for a relative [b]. *)
Definition os_path_join (a b : string) : string :=
  match a with
  | EmptyString => b
  | _ => if ends_with_slash a then a ++ b else a ++ "/" ++ b
  end.

(** [not x] for [x] a string or [None]. *)
Definition py_not (x : option string) : bool :=
  match x with
  | None => true
  | Some EmptyString => true
  | Some _ => false
  end.

(** [len(l)]. *)
Definition len {A : Type} (l : list A) : Z := Z.of_nat (length l).

(* ===================================================================== *)
(** ** The script *)
(* ===================================================================== *)

(** The line feed. *)
Definition LF : string := String (ascii_of_nat 10) EmptyString.

(** Lines 42-63: the plain-text fallback, a literal.  It is written here
    line by line, so that the indentation of eight spaces that the literal
    carries on every line, also on the empty ones and before the closing
    quotes, and the space that ends the sixth line are visible. *)
Definition text_content : string :=
  String.concat LF
    [ "";
      "        AI Study Newsletter";
      "        ";
      "        Discover AI Study - Transform Learning with AI";
      "        ";
      "        We're excited to introduce AI Study, a revolutionary platform that helps educators ";
      "        and professionals create comprehensive learning materials in minutes.";
      "        ";
      "        Features:";
      "        - AI-Powered Generation";
      "        - Multiple Course Formats";
      "        - Smart Flash Cards";
      "        - Study Guides";
      "        - Interactive Quizzes";
      "        - AI Teacher Chat";
      "        - 23+ Languages Support";
      "        - PWA & Offline Access";
      "        ";
      "        Visit us to learn more!";
      "        ";
      "        Contact: hello@aistudy.com";
      "        " ].

Section Script.

(** How the outside answers, and the directory of the script, the value
    of [os.path.dirname(os.path.abspath(__file__))]. *)
Variable env : environment.
Variable script_dir : string.

(** A call to the outside: the reply is asked of [env], recorded, and
    returned or raised. *)
Definition perform (c : call) : M string :=
  fun w =>
    let r := env (history w) c in
    let w' := log_event (Called c r) w in
    match r with
    | Returned v => (Return v, w')
    | Raised e => (Raise e, w')
    end.

Definition html_file : string := os_path_join script_dir "index.html".

(** [with open(path, 'r', encoding='utf-8') as file: body]
    The file is closed when the block is left, whether the body returned
    or raised; an exception raised by the close replaces the outcome of
    the body. *)
Definition with_open {A : Type} (path : string) (body : M A) : M A :=
  _ <- perform (FsOpen path) ;;
  fun w =>
    let (r, w1) := body w in
    match perform FsClose w1 with
    | (Return _, w2) => (r, w2)
    | (Raise e, w2) => (Raise e, w2)
    end.

(** Lines 15-25. *)
Definition read_html_template : M (option string) :=
  try_except
    (with_open html_file
       (s <- perform FsRead ;;
        ret (Some s)))
    [ (FileNotFoundError,
       fun _ =>
         print ("Error: Could not find " ++ html_file) ;;
         ret None) ].

(** Lines 27-99. *)
Definition send_newsletter (recipient_email : string) : M bool :=
  enter recipient_email ;;
  try_except
    (_ <- perform (MimeMultipart "alternative") ;;
     let msg := MIMEMultipart "alternative" in
     from_name_ <- read_global from_name ;;
     email_ <- read_global email ;;
     let v := (from_name_ ++ " <" ++ email_ ++ ">")%string in
     _ <- perform (MimeSetItem "From" v) ;;
     let msg := setitem msg "From" v in
     _ <- perform (MimeSetItem "To" recipient_email) ;;
     let msg := setitem msg "To" recipient_email in
     subject_ <- read_global subject ;;
     _ <- perform (MimeSetItem "Subject" subject_) ;;
     let msg := setitem msg "Subject" subject_ in
     html_content <- read_html_template ;;
     if py_not html_content then ret false else
     let html := match html_content with Some s => s | None => "" end in
     _ <- perform (MimeText text_content "plain") ;;
     let part1 := MIMEText text_content "plain" in
     _ <- perform (MimeText html "html") ;;
     let part2 := MIMEText html "html" in
     _ <- perform (MimeAttach part1) ;;
     let msg := attach msg part1 in
     _ <- perform (MimeAttach part2) ;;
     let msg := attach msg part2 in
     print "Connecting to Gmail SMTP server..." ;;
     _ <- perform (SmtpConnect "smtp.gmail.com" 587) ;;
     _ <- perform SmtpStarttls ;;
     email_ <- read_global email ;;
     print ("Logging in as " ++ email_ ++ "...") ;;
     email_ <- read_global email ;;
     password_ <- read_global password ;;
     _ <- perform (SmtpLogin email_ password_) ;;
     print ("Sending newsletter to " ++ recipient_email ++ "...") ;;
     _ <- perform (SmtpSendMessage msg) ;;
     _ <- perform SmtpQuit ;;
     print ("✓ Successfully sent to " ++ recipient_email) ;;
     ret true)
    [ (SMTPAuthenticationError,
       fun _ =>
         print "✗ Authentication failed. Please check your email and app password." ;;
         ret false);
      (SMTPException,
       fun e =>
         print ("✗ SMTP error occurred: " ++ exn_str e) ;;
         ret false);
      (Exception,
       fun e =>
         print ("✗ Error sending to " ++ recipient_email ++ ": " ++ exn_str e) ;;
         ret false) ].

(** Lines 115-120: the loop of [main], with its two local counters. *)
Fixpoint for_recipient (l : list string) (success_count fail_count : Z)
  : M (Z * Z) :=
  match l with
  | [] => ret (success_count, fail_count)
  | recipient :: rest =>
      sent <- send_newsletter recipient ;;
      let success_count := if sent then success_count + 1 else success_count in
      let fail_count := if sent then fail_count else fail_count + 1 in
      print "" ;;
      for_recipient rest success_count fail_count
  end.

(** Lines 122-126. *)
Definition print_summary (success_count fail_count : Z) : M unit :=
  print (str_mul "=" 60) ;;
  print "Newsletter Sending Complete" ;;
  print ("✓ Successful: " ++ str_of_int success_count) ;;
  print ("✗ Failed: " ++ str_of_int fail_count) ;;
  print (str_mul "=" 60).

(** Lines 101-126. *)
Definition main : M unit :=
  print (str_mul "=" 60) ;;
  print "AI Study Newsletter Sender" ;;
  print (str_mul "=" 60) ;;
  email_ <- read_global email ;;
  print ("From: " ++ email_) ;;
  emailList_ <- read_global emailList ;;
  print ("Recipients: " ++ str_of_int (len emailList_)) ;;
  subject_ <- read_global subject ;;
  print ("Subject: " ++ subject_) ;;
  print (str_mul "=" 60) ;;
  print "" ;;
  let success_count := 0 in
  let fail_count := 0 in
  emailList_ <- read_global emailList ;;
  counts <- for_recipient emailList_ success_count fail_count ;;
  print_summary (fst counts) (snd counts).

End Script.

(* ===================================================================== *)
(** ** Observing a run *)
(* ===================================================================== *)

(** The world reached from [w] after the events [evs] and the output lines
    [out]; the globals are those of [w]. *)
Definition advance (w : world) (evs : list event) (out : list string) : world :=
  {| globals := globals w;
     history := history w ++ evs;
     stdout := stdout w ++ out |}.

(** [wp w m evs out Q]: started in the world reached from [w] after [evs]
    and [out], the computation [m] ends in a world reached from [w], and
    its result, with all the events and all the lines since [w], satisfies
    [Q]. *)
Definition wp {A : Type} (w : world) (m : M A)
  (evs : list event) (out : list string)
  (Q : result A -> list event -> list string -> Prop) : Prop :=
  exists r evs' out',
    m (advance w evs out) = (r, advance w evs' out') /\ Q r evs' out'.

(** What one call of [send_newsletter] did: the value it returned, the
    events it added to the history and the lines it printed. *)
Record attempt : Type := mk_attempt {
  sent : bool;
  events : list event;
  lines : list string
}.

(** [send_newsletter recipient_email] run in [w] is the attempt [a]. *)
Definition attempt_in (env : environment) (script_dir : string)
  (recipient_email : string) (w : world) (a : attempt) : Prop :=
  send_newsletter env script_dir recipient_email w
  = (Return (sent a), advance w (events a) (lines a)).

(** The attempts of a run of the loop: their events, their lines (the loop
    prints an empty line after each attempt), and the two counts. *)
Definition run_events (steps : list attempt) : list event :=
  flat_map events steps.

Definition run_lines (steps : list attempt) : list string :=
  flat_map (fun a => lines a ++ [""]) steps.

Definition successes (steps : list attempt) : Z :=
  len (filter sent steps).

Definition failures (steps : list attempt) : Z :=
  len (filter (fun a => negb (sent a)) steps).

(** The lines [main] prints before the loop and after it. *)
Definition header_lines (g : module_globals) : list string :=
  [ str_mul "=" 60;
    "AI Study Newsletter Sender";
    str_mul "=" 60;
    ("From: " ++ email g)%string;
    ("Recipients: " ++ str_of_int (len (emailList g)))%string;
    ("Subject: " ++ subject g)%string;
    str_mul "=" 60;
    "" ].

Definition summary_lines (success_count fail_count : Z) : list string :=
  [ str_mul "=" 60;
    "Newsletter Sending Complete";
    ("✓ Successful: " ++ str_of_int success_count)%string;
    ("✗ Failed: " ++ str_of_int fail_count)%string;
    str_mul "=" 60 ].

(** The three lines a failed attempt can report its reason with. *)
Definition authentication_line : string :=
  "✗ Authentication failed. Please check your email and app password.".

Definition smtp_error_line (e : exn) : string :=
  ("✗ SMTP error occurred: " ++ exn_str e)%string.

Definition unexpected_line (recipient_email : string) (e : exn) : string :=
  ("✗ Error sending to " ++ recipient_email ++ ": " ++ exn_str e)%string.

Definition template_missing_line (script_dir : string) : string :=
  ("Error: Could not find " ++ html_file script_dir)%string.

(** Classifying events. *)
Definition is_connect (ev : event) : bool :=
  match ev with Called (SmtpConnect _ _) _ => true | _ => false end.

Definition connect_returned (ev : event) : bool :=
  match ev with Called (SmtpConnect _ _) (Returned _) => true | _ => false end.

Definition is_quit (ev : event) : bool :=
  match ev with Called SmtpQuit _ => true | _ => false end.

Definition transmitted (ev : event) : bool :=
  match ev with Called (SmtpSendMessage _) (Returned _) => true | _ => false end.

Definition is_login (ev : event) : bool :=
  match ev with Called (SmtpLogin _ _) _ => true | _ => false end.

Definition is_smtp (ev : event) : bool :=
  match ev with
  | Called (SmtpConnect _ _) _ | Called SmtpStarttls _
  | Called (SmtpLogin _ _) _ | Called (SmtpSendMessage _) _
  | Called SmtpQuit _ => true
  | _ => false
  end.

Definition is_mime_text (ev : event) : bool :=
  match ev with Called (MimeText _ _) _ => true | _ => false end.

(** The arguments of the calls of [send_newsletter], in order. *)
Fixpoint invocations (evs : list event) : list string :=
  match evs with
  | [] => []
  | Invoked r :: evs' => r :: invocations evs'
  | Called _ _ :: evs' => invocations evs'
  end.

(** The messages handed to [server.send_message], in order. *)
Fixpoint submitted (evs : list event) : list message :=
  match evs with
  | [] => []
  | Called (SmtpSendMessage m) _ :: evs' => m :: submitted evs'
  | _ :: evs' => submitted evs'
  end.

(** The value of a header field of a message. *)
Definition header (name : string) (m : message) : option string :=
  match find (fun kv => String.eqb (fst kv) name) (headers m) with
  | Some kv => Some (snd kv)
  | None => None
  end.

(** Classifying replies and calls. *)
Definition returned (r : reply) : bool :=
  match r with Returned _ => true | Raised _ => false end.

Definition raised (c : exc_class) (r : reply) : bool :=
  match r with Returned _ => false | Raised e => isinstance e c end.

Definition is_mime_call (c : call) : bool :=
  match c with
  | MimeMultipart _ | MimeSetItem _ _ | MimeText _ _ | MimeAttach _ => true
  | _ => false
  end.

(** ** Assumptions on the outside *)

(** A constraint says which replies to a call are admitted; the outside
    obeys it when every reply it gives, after whatever history, is. *)
Definition constraint : Type := call -> reply -> bool.

Definition obeys (env : environment) (k : constraint) : Prop :=
  forall h c, k c (env h c) = true.

(** Building a message never raises. *)
Definition building_succeeds : constraint :=
  fun c r => if is_mime_call c then returned r else true.

(** The template file is absent: [open] raises [FileNotFoundError]. *)
Definition template_missing : constraint :=
  fun c r =>
    match c with
    | FsOpen _ => raised FileNotFoundError r
    | _ => true
    end.

(** The template file is there and holds some text: [open] and the close
    return, and [read] returns a string that is not empty. *)
Definition template_present : constraint :=
  fun c r =>
    match c, r with
    | FsOpen _, _ | FsClose, _ => returned r
    | FsRead, Returned v => negb (py_not (Some v))
    | FsRead, Raised _ => false
    | _, _ => true
    end.

(** The template file is there and holds nothing: [read] returns the
    empty string. *)
Definition template_empty : constraint :=
  fun c r =>
    match c, r with
    | FsOpen _, _ | FsClose, _ => returned r
    | FsRead, Returned v => String.eqb v ""
    | FsRead, Raised _ => false
    | _, _ => true
    end.

(** The template file is there and is not UTF-8: [read] raises
    [UnicodeDecodeError]. *)
Definition template_undecodable : constraint :=
  fun c r =>
    match c with
    | FsOpen _ | FsClose => returned r
    | FsRead => raised UnicodeDecodeError r
    | _ => true
    end.

(** The relay accepts the connection and the upgrade. *)
Definition relay_reachable : constraint :=
  fun c r =>
    match c with
    | SmtpConnect _ _ | SmtpStarttls => returned r
    | _ => true
    end.

(** The relay rejects the credential: [login] raises
    [SMTPAuthenticationError]. *)
Definition authentication_rejected : constraint :=
  fun c r =>
    match c with
    | SmtpLogin _ _ => raised SMTPAuthenticationError r
    | _ => true
    end.

(** ** Scenarios *)

(** Globals of the scenarios of the specification. *)
Definition scenario_globals (recipients : list string) : module_globals :=
  {| email := "sender@x.com";
     password := "app password";
     emailList := recipients;
     subject := "AI Study Newsletter - Discover AI-Powered Learning";
     from_name := "AI Study Team" |}.

Definition start (recipients : list string) : world :=
  {| globals := scenario_globals recipients; history := []; stdout := [] |}.

Definition scenario_dir : string := "/srv/marketing".

Definition scenario_html : string := "<html><body>AI Study</body></html>".

(** Everything works. *)
Definition env_delivers : environment :=
  fun _ c =>
    match c with
    | FsRead => Returned scenario_html
    | _ => Returned ""
    end.

(** No [index.html] beside the script. *)
Definition no_such_file : exn :=
  mk_exn FileNotFoundError
    "[Errno 2] No such file or directory: '/srv/marketing/index.html'".

Definition env_no_template : environment :=
  fun _ c =>
    match c with
    | FsOpen _ => Raised no_such_file
    | _ => Returned ""
    end.

(** An [index.html] of no bytes. *)
Definition env_empty_template : environment :=
  fun _ c => Returned "".

(** An [index.html] that is not UTF-8. *)
Definition bad_utf8 : exn :=
  mk_exn UnicodeDecodeError
    "'utf-8' codec can't decode byte 0xff in position 0: invalid start byte".

Definition env_undecodable : environment :=
  fun _ c =>
    match c with
    | FsRead => Raised bad_utf8
    | _ => Returned ""
    end.

(** The relay rejects the credential. *)
Definition bad_credentials : exn :=
  mk_exn SMTPAuthenticationError
    "(535, b'5.7.8 Username and Password not accepted.')".

Definition env_auth_rejected : environment :=
  fun _ c =>
    match c with
    | FsRead => Returned scenario_html
    | SmtpLogin _ _ => Raised bad_credentials
    | _ => Returned ""
    end.

(** The relay refuses the recipient at transmission. *)
Definition recipient_refused : exn :=
  mk_exn SMTPRecipientsRefused
    "{'nobody@x.com': (550, b'5.1.1 The email account does not exist.')}".

Definition env_recipient_refused : environment :=
  fun _ c =>
    match c with
    | FsRead => Returned scenario_html
    | SmtpSendMessage _ => Raised recipient_refused
    | _ => Returned ""
    end.

(** The relay does not offer the upgrade. *)
Definition upgrade_unsupported : exn :=
  mk_exn SMTPNotSupportedError "STARTTLS extension not supported by server.".

Definition env_upgrade_fails : environment :=
  fun _ c =>
    match c with
    | FsRead => Returned scenario_html
    | SmtpStarttls => Raised upgrade_unsupported
    | _ => Returned ""
    end.

(** ** What holds of every attempt *)

(** The parts handed to [msg.attach], in order. *)
Fixpoint attached (evs : list event) : list mime_part :=
  match evs with
  | [] => []
  | Called (MimeAttach p) _ :: evs' => p :: attached evs'
  | _ :: evs' => attached evs'
  end.

(** Line 66: the plain-text part. *)
Definition plain_part : mime_part := MIMEText text_content "plain".

(** Nothing is attached before the plain-text part, and only HTML parts
    after it. *)
Definition plain_first (ps : list mime_part) : Prop :=
  match ps with
  | [] => True
  | p :: rest => p = plain_part /\ Forall (fun q => subtype q = "html") rest
  end.

(** An attempt is entered once, for its recipient; what it attaches starts
    with the plain-text part; and every message it hands to the relay has
    the plain-text part first and then the text it read from the template
    as the HTML part. *)
Definition orderly (recipient_email : string) (a : attempt) : Prop :=
  (exists calls,
     events a = Invoked recipient_email :: calls /\
     invocations calls = []) /\
  plain_first (attached (events a)) /\
  Forall
    (fun m =>
       exists html,
         In (Called FsRead (Returned html)) (events a) /\
         parts m = [plain_part; MIMEText html "html"])
    (submitted (events a)).

(** [main], run in [w], returned, and its attempts were [steps]: the
    history grew by their events, and the output by the header, their
    lines and the summary with their two counts. *)
Definition ran (env : environment) (script_dir : string) (w : world)
  (steps : list attempt) : Prop :=
  main env script_dir w
  = (Return tt,
     advance w (run_events steps)
       (header_lines (globals w) ++ run_lines steps
        ++ summary_lines (successes steps) (failures steps))).

(** The lines an attempt prints when the login is rejected. *)
Definition rejected_lines (g : module_globals) : list string :=
  [ "Connecting to Gmail SMTP server...";
    ("Logging in as " ++ email g ++ "...")%string;
    authentication_line ].

(* ===================================================================== *)
(** ** Further observations *)
(* ===================================================================== *)

(** The calls made to the relay, with their replies, in order. *)
Fixpoint smtp_session (evs : list event) : list (call * reply) :=
  match evs with
  | [] => []
  | Invoked _ :: evs' => smtp_session evs'
  | Called c r :: evs' =>
      if is_smtp (Called c r) then (c, r) :: smtp_session evs'
      else smtp_session evs'
  end.

(** Lines 74-86: the five calls of a session, in source order. *)
Definition session_steps (g : module_globals) : list (call -> Prop) :=
  [ eq (SmtpConnect "smtp.gmail.com" 587);
    eq SmtpStarttls;
    eq (SmtpLogin (email g) (password g));
    fun c => exists m, c = SmtpSendMessage m;
    eq SmtpQuit ].

(** [follows steps s]: the calls of [s] are the first calls of [steps], one
    each and in that order, and every call but the last one returned. *)
Fixpoint follows (steps : list (call -> Prop)) (s : list (call * reply))
  : Prop :=
  match s with
  | [] => True
  | (c, r) :: s' =>
      match steps with
      | [] => False
      | step :: steps' =>
          step c /\ (s' = [] \/ returned r = true) /\ follows steps' s'
      end
  end.

(** The paths handed to [open], in order. *)
Fixpoint opened (evs : list event) : list string :=
  match evs with
  | [] => []
  | Called (FsOpen path) _ :: evs' => path :: opened evs'
  | _ :: evs' => opened evs'
  end.

(** The exception raised last, if any call raised. *)
Fixpoint last_raised (evs : list event) : option exn :=
  match evs with
  | [] => None
  | Called _ (Raised e) :: evs' =>
      match last_raised evs' with
      | Some e' => Some e'
      | None => Some e
      end
  | _ :: evs' => last_raised evs'
  end.

Definition quit_returned (ev : event) : bool :=
  match ev with Called SmtpQuit (Returned _) => true | _ => false end.

(** Line 88, and the four lines of an attempt that delivers. *)
Definition success_line (recipient_email : string) : string :=
  ("✓ Successfully sent to " ++ recipient_email)%string.

Definition delivered_lines (g : module_globals) (recipient_email : string)
  : list string :=
  [ "Connecting to Gmail SMTP server...";
    ("Logging in as " ++ email g ++ "...")%string;
    ("Sending newsletter to " ++ recipient_email ++ "...")%string;
    success_line recipient_email ].

(** [s.startswith(p)]. *)
Fixpoint starts_with (p s : string) : bool :=
  match p with
  | EmptyString => true
  | String a p' =>
      match s with
      | EmptyString => false
      | String b s' => Ascii.eqb a b && starts_with p' s'
      end
  end.

Definition is_success_line (s : string) : bool :=
  starts_with "✓ Successfully sent to " s.

(** Lines 91-99 read as a table: the line that reports an exception, by
    its class. *)
Definition failure_line (recipient_email : string) (e : exn) : string :=
  if isinstance e SMTPAuthenticationError then authentication_line
  else if isinstance e SMTPException then smtp_error_line e
  else unexpected_line recipient_email e.

(** The relay accepts the credential and the message. *)
Definition relay_accepts : constraint :=
  fun c r =>
    match c with
    | SmtpLogin _ _ | SmtpSendMessage _ => returned r
    | _ => true
    end.

(** Ending the session raises. *)
Definition quit_raises : constraint :=
  fun c r =>
    match c, r with
    | SmtpQuit, Returned _ => false
    | _, _ => true
    end.

(** Every call returns, and the template holds some text. *)
Definition everything_returns : constraint :=
  fun c r =>
    match c, r with
    | FsRead, Returned v => negb (py_not (Some v))
    | _, Returned _ => true
    | _, Raised _ => false
    end.

(** The relay drops the connection when asked to end the session. *)
Definition disconnected : exn :=
  mk_exn SMTPServerDisconnected "Connection unexpectedly closed".

Definition env_quit_fails : environment :=
  fun _ c =>
    match c with
    | FsRead => Returned scenario_html
    | SmtpQuit => Raised disconnected
    | _ => Returned ""
    end.

(* ===================================================================== *)
(** ** Reasoning rules *)
(* ===================================================================== *)

Lemma advance_nil (w : world) : advance w [] [] = w.
Proof. destruct w; unfold advance; cbn. now rewrite !app_nil_r. Qed.

Lemma advance_advance (w : world) evs1 out1 evs2 out2 :
  advance (advance w evs1 out1) evs2 out2
  = advance w (evs1 ++ evs2) (out1 ++ out2).
Proof. unfold advance; cbn. now rewrite !app_assoc. Qed.

Lemma isinstance_Exception (e : exn) : isinstance e Exception = true.
Proof. destruct e as [c s]; destruct c; reflexivity. Qed.

Section Rules.

Context {A : Type}.
Variable w : world.
Variables (evs : list event) (out : list string).
Variable Q : result A -> list event -> list string -> Prop.

Lemma wp_ret (a : A) : Q (Return a) evs out -> wp w (ret a) evs out Q.
Proof. intros HQ. exists (Return a), evs, out. now split. Qed.

Lemma wp_raise (e : exn) : Q (Raise e) evs out -> wp w (raise e) evs out Q.
Proof. intros HQ. exists (Raise e), evs, out. now split. Qed.

Lemma wp_bind {B : Type} (m : M B) (k : B -> M A) :
  wp w m evs out
     (fun r evs' out' =>
        match r with
        | Return b => wp w (k b) evs' out' Q
        | Raise e => Q (Raise e) evs' out'
        end) ->
  wp w (bind m k) evs out Q.
Proof.
  intros (r & evs1 & out1 & Hm & Hk). unfold wp. cbn. rewrite Hm.
  destruct r as [b | e].
  - exact Hk.
  - now exists (Raise e), evs1, out1.
Qed.

Lemma wp_try_except (body : M A) (hs : handlers A) :
  wp w body evs out
     (fun r evs' out' =>
        match r with
        | Return a => Q (Return a) evs' out'
        | Raise e => wp w (dispatch hs e) evs' out' Q
        end) ->
  wp w (try_except body hs) evs out Q.
Proof.
  intros (r & evs1 & out1 & Hm & Hk). unfold wp, try_except. cbn. rewrite Hm.
  destruct r as [a | e].
  - now exists (Return a), evs1, out1.
  - exact Hk.
Qed.

Lemma wp_dispatch_nil (e : exn) :
  Q (Raise e) evs out -> wp w (dispatch [] e) evs out Q.
Proof. apply wp_raise. Qed.

Lemma wp_dispatch_cons (c : exc_class) (h : exn -> M A) (hs : handlers A)
  (e : exn) :
  (isinstance e c = true -> wp w (h e) evs out Q) ->
  (isinstance e c = false -> wp w (dispatch hs e) evs out Q) ->
  wp w (dispatch ((c, h) :: hs) e) evs out Q.
Proof.
  intros Ht Hf.
  change (dispatch ((c, h) :: hs) e)
    with (if isinstance e c then h e else dispatch hs e).
  destruct (isinstance e c); auto.
Qed.

Lemma wp_run (m : M A) :
  wp w m [] [] Q ->
  exists r evs' out', m w = (r, advance w evs' out') /\ Q r evs' out'.
Proof. unfold wp. now rewrite advance_nil. Qed.

End Rules.

Section PrimitiveRules.

Variable env : environment.
Variable w : world.
Variables (evs : list event) (out : list string).

Lemma wp_print (s : string) (Q : result unit -> _ -> _ -> Prop) :
  Q (Return tt) evs (out ++ [s]) -> wp w (print s) evs out Q.
Proof. intros HQ. exists (Return tt), evs, (out ++ [s]). split; [|exact HQ].
  unfold print, advance; cbn. now rewrite app_assoc. Qed.

Lemma wp_enter (r : string) (Q : result unit -> _ -> _ -> Prop) :
  Q (Return tt) (evs ++ [Invoked r]) out -> wp w (enter r) evs out Q.
Proof. intros HQ. exists (Return tt), (evs ++ [Invoked r]), out. split; [|exact HQ].
  unfold enter, log_event, advance; cbn. now rewrite app_assoc. Qed.

Lemma wp_read_global {A : Type} (f : module_globals -> A)
  (Q : result A -> _ -> _ -> Prop) :
  Q (Return (f (globals w))) evs out -> wp w (read_global f) evs out Q.
Proof. intros HQ. now exists (Return (f (globals w))), evs, out. Qed.

Lemma wp_perform (c : call) (Q : result string -> _ -> _ -> Prop) :
  (forall v, env (history w ++ evs) c = Returned v ->
             Q (Return v) (evs ++ [Called c (Returned v)]) out) ->
  (forall e, env (history w ++ evs) c = Raised e ->
             Q (Raise e) (evs ++ [Called c (Raised e)]) out) ->
  wp w (perform env c) evs out Q.
Proof.
  intros Hv He. unfold wp, perform, log_event. cbn.
  destruct (env (history w ++ evs) c) as [v | e] eqn:E.
  - exists (Return v), (evs ++ [Called c (Returned v)]), out. split; [|auto].
    unfold advance; cbn. now rewrite app_assoc.
  - exists (Raise e), (evs ++ [Called c (Raised e)]), out. split; [|auto].
    unfold advance; cbn. now rewrite app_assoc.
Qed.

Lemma wp_with_open {A : Type} (path : string) (body : M A)
  (Q : result A -> _ -> _ -> Prop) :
  wp w (perform env (FsOpen path)) evs out
     (fun r evs1 out1 =>
        match r with
        | Raise e => Q (Raise e) evs1 out1
        | Return _ =>
            wp w body evs1 out1
               (fun rb evs2 out2 =>
                  wp w (perform env FsClose) evs2 out2
                     (fun rc evs3 out3 =>
                        match rc with
                        | Return _ => Q rb evs3 out3
                        | Raise e => Q (Raise e) evs3 out3
                        end))
        end) ->
  wp w (with_open env path body) evs out Q.
Proof.
  intros H. unfold with_open. apply wp_bind.
  destruct H as (r & evs1 & out1 & Ho & H). exists r, evs1, out1.
  split; [exact Ho|]. destruct r as [v | e]; [|exact H].
  destruct H as (rb & evs2 & out2 & Hb & rc & evs3 & out3 & Hc & H).
  unfold wp. rewrite Hb, Hc. destruct rc; eauto.
Qed.

End PrimitiveRules.


Lemma wp_dispatch_Exception {A : Type} (w : world) evs out
  (Q : result A -> list event -> list string -> Prop)
  (h : exn -> M A) (hs : handlers A) (e : exn) :
  wp w (h e) evs out Q ->
  wp w (dispatch ((Exception, h) :: hs) e) evs out Q.
Proof.
  intros H. apply wp_dispatch_cons; [auto|].
  rewrite isinstance_Exception. discriminate.
Qed.


(** The classes a template error can have are not caught as SMTP errors. *)
Lemma FileNotFoundError_not_smtp (e : exn) :
  isinstance e FileNotFoundError = true ->
  isinstance e SMTPAuthenticationError = false /\
  isinstance e SMTPException = false.
Proof. destruct e as [[] s]; vm_compute; intros H; now try discriminate H. Qed.

Lemma UnicodeDecodeError_not_caught_early (e : exn) :
  isinstance e UnicodeDecodeError = true ->
  isinstance e FileNotFoundError = false /\
  isinstance e SMTPAuthenticationError = false /\
  isinstance e SMTPException = false.
Proof. destruct e as [[] s]; vm_compute; intros H; now try discriminate H. Qed.

(** What one assumption on the outside says about the reply just got. *)
Ltac learn_from H E :=
  lazymatch type of E with
  | ?env ?h ?c = ?r =>
      let X := fresh "K" in
      pose proof (H h c) as X; rewrite E in X;
      cbv beta iota delta
        [building_succeeds template_missing template_present
         template_empty template_undecodable relay_reachable
         authentication_rejected relay_accepts quit_raises
         everything_returns is_mime_call returned raised] in X;
      first
        [ discriminate X
        | lazymatch type of X with true = true => clear X end
        | lazymatch type of X with
          | isinstance ?e FileNotFoundError = true =>
              destruct (FileNotFoundError_not_smtp e X) as (? & ?)
          | isinstance ?e UnicodeDecodeError = true =>
              destruct (UnicodeDecodeError_not_caught_early e X) as (? & ? & ?)
          | _ => idtac
          end ]
  end.

Ltac learn E :=
  repeat match goal with
         | H : obeys _ _ |- _ => learn_from H E; revert H
         end;
  intros.

Ltac clash :=
  match goal with
  | H1 : isinstance ?e ?c = true, H2 : isinstance ?e ?c = false |- _ =>
      rewrite H1 in H2; discriminate H2
  end.

(** One step of symbolic execution. *)
Ltac wp_step :=
  lazymatch goal with
  | |- wp _ (bind _ _) _ _ _ => apply wp_bind
  | |- wp _ (ret _) _ _ _ => apply wp_ret
  | |- wp _ (try_except _ _) _ _ _ => apply wp_try_except
  | |- wp _ (dispatch ((Exception, _) :: _) _) _ _ _ =>
      apply wp_dispatch_Exception
  | |- wp _ (dispatch (_ :: _) _) _ _ _ =>
      apply wp_dispatch_cons; intros ?; try clash
  | |- wp _ (dispatch [] _) _ _ _ => apply wp_dispatch_nil
  | |- wp _ (print _) _ _ _ => apply wp_print
  | |- wp _ (enter _) _ _ _ => apply wp_enter
  | |- wp _ (read_global _) _ _ _ => apply wp_read_global
  | |- wp _ (with_open _ _ _) _ _ _ => apply wp_with_open
  | |- wp _ (perform _ _) _ _ _ =>
      apply wp_perform;
      let E := fresh "E" in intros ? E; learn E
  | |- wp _ (if py_not None then _ else _) _ _ _ =>
      change (py_not None) with true; cbv iota
  | |- wp _ (if py_not (Some ?v) then _ else _) _ _ _ =>
      first
        [ match goal with
          | X : negb (py_not (Some v)) = true |- _ =>
              apply negb_true_iff in X; rewrite X
          | X : String.eqb v EmptyString = true |- _ =>
              apply String.eqb_eq in X; subst v;
              change (py_not (Some EmptyString)) with true
          end
        | destruct (py_not (Some v)) eqn:? ];
      cbv iota
  | |- wp _ (read_html_template _ _) _ _ _ => unfold read_html_template
  | |- wp _ (send_newsletter _ _ _) _ _ _ => unfold send_newsletter
  end; cbn [app].

Ltac wp_exec := repeat wp_step.

Ltac in_list := solve [repeat first [left; reflexivity | right]].

Lemma wp_attempt env dir r w (P : attempt -> Prop) :
  wp w (send_newsletter env dir r) [] []
     (fun res evs out => exists b, res = Return b /\ P (mk_attempt b evs out)) ->
  exists a, attempt_in env dir r w a /\ P a.
Proof.
  intros H. apply wp_run in H. destruct H as (res & evs & out & E & b & -> & HP).
  now exists (mk_attempt b evs out).
Qed.

Ltac attempt_leaf tac :=
  eexists; split; [reflexivity | tac].

(** Every attempt, whatever the outside does. *)
Lemma every_attempt env dir r w :
  exists a, attempt_in env dir r w a /\ orderly r a.
Proof.
  apply wp_attempt. wp_exec.
  all: attempt_leaf ltac:(
         split; [eexists; split; reflexivity|];
         split;
         [ cbn [attached events plain_first];
           first [exact I | split; [reflexivity | repeat constructor]]
         | cbn [submitted events];
           first [ apply Forall_nil
                 | apply Forall_cons;
                   [ eexists; split; [in_list | reflexivity]
                   | apply Forall_nil ] ] ]).
Qed.

(* ===================================================================== *)
(** ** The loop and [main] *)
(* ===================================================================== *)

Lemma successes_cons a steps :
  successes (a :: steps) = (if sent a then 1 else 0) + successes steps.
Proof. unfold successes, len. cbn. destruct (sent a); cbn [length]; lia. Qed.

Lemma failures_cons a steps :
  failures (a :: steps) = (if sent a then 0 else 1) + failures steps.
Proof. unfold failures, len. cbn. destruct (sent a); cbn [negb length]; lia. Qed.

Lemma successes_failures steps : successes steps + failures steps = len steps.
Proof.
  induction steps as [|a steps IH]; [reflexivity|].
  rewrite successes_cons, failures_cons. unfold len in *. cbn [length].
  destruct (sent a); lia.
Qed.

Lemma all_failed (l : list string) steps (P : string -> attempt -> Prop) :
  (forall r a, P r a -> sent a = false) ->
  Forall2 P l steps ->
  successes steps = 0 /\ failures steps = len l.
Proof.
  intros HP H. induction H as [|r a l steps Hra _ [IHs IHf]]; [now split|].
  rewrite successes_cons, failures_cons, (HP r a Hra), IHs, IHf.
  unfold len. cbn [length]. lia.
Qed.

Lemma Forall2_len {A B : Type} (R : A -> B -> Prop) l1 l2 :
  Forall2 R l1 l2 -> len l2 = len l1.
Proof. intros H. unfold len. now rewrite (Forall2_length H). Qed.

Lemma print_advance (s : string) w evs out :
  print s (advance w evs out) = (Return tt, advance w evs (out ++ [s])).
Proof. unfold print, advance; cbn. now rewrite app_assoc. Qed.

(** The loop is one attempt per element, in order. *)
Lemma for_recipient_run env dir
  (P : module_globals -> string -> attempt -> Prop) :
  (forall r w, exists a, attempt_in env dir r w a /\ P (globals w) r a) ->
  forall l success_count fail_count w,
  exists steps,
    Forall2 (P (globals w)) l steps /\
    for_recipient env dir l success_count fail_count w
    = (Return (success_count + successes steps, fail_count + failures steps),
       advance w (run_events steps) (run_lines steps)).
Proof.
  intros Hstep l. induction l as [|r l IH]; intros sc fc w.
  - exists []. split; [constructor|]. cbn. rewrite advance_nil.
    now rewrite !Z.add_0_r.
  - destruct (Hstep r w) as (a & Ha & HP). unfold attempt_in in Ha.
    destruct (IH (if sent a then sc + 1 else sc)
                 (if sent a then fc else fc + 1)
                 (advance w (events a) (lines a ++ [""])))
      as (steps & Hsteps & Hrun).
    exists (a :: steps). split; [now constructor|].
    cbn [for_recipient]. cbn [bind Monad_M]. rewrite Ha.
    rewrite print_advance. cbv iota beta.
    rewrite Hrun, advance_advance, successes_cons, failures_cons.
    unfold run_events, run_lines. cbn [flat_map].
    rewrite <- !app_assoc.
    destruct (sent a); rewrite ?Z.add_assoc, ?Z.add_0_r; reflexivity.
Qed.

Lemma wp_for_recipient env dir
  (P : module_globals -> string -> attempt -> Prop) w l sc fc evs out
  (Q : result (Z * Z) -> list event -> list string -> Prop) :
  (forall r w, exists a, attempt_in env dir r w a /\ P (globals w) r a) ->
  (forall steps, Forall2 (P (globals w)) l steps ->
     Q (Return (sc + successes steps, fc + failures steps))
       (evs ++ run_events steps) (out ++ run_lines steps)) ->
  wp w (for_recipient env dir l sc fc) evs out Q.
Proof.
  intros Hstep HQ.
  destruct (for_recipient_run env dir P Hstep l sc fc (advance w evs out))
    as (steps & Hsteps & Hrun).
  eexists _, _, _. split; [|exact (HQ steps Hsteps)].
  now rewrite Hrun, advance_advance.
Qed.

(** [main] prints the header, runs one attempt per recipient, and prints
    the summary with the two counts. *)
Lemma main_run env dir (P : module_globals -> string -> attempt -> Prop) :
  (forall r w, exists a, attempt_in env dir r w a /\ P (globals w) r a) ->
  forall w,
  exists steps,
    Forall2 (P (globals w)) (emailList (globals w)) steps /\
    main env dir w
    = (Return tt,
       advance w (run_events steps)
         (header_lines (globals w) ++ run_lines steps
          ++ summary_lines (successes steps) (failures steps))).
Proof.
  intros Hstep w.
  assert (H : wp w (main env dir) [] []
                (fun res evs out =>
                   exists steps,
                     Forall2 (P (globals w)) (emailList (globals w)) steps /\
                     res = Return tt /\ evs = run_events steps /\
                     out = header_lines (globals w) ++ run_lines steps
                           ++ summary_lines (successes steps) (failures steps))).
  { unfold main, print_summary. wp_exec.
    apply (wp_for_recipient env dir P); [exact Hstep|]. intros steps Hsteps.
    cbv beta iota. wp_exec. exists steps. repeat split; try assumption.
    cbn [fst snd]. rewrite !Z.add_0_l. unfold header_lines, summary_lines.
    rewrite <- !app_assoc. reflexivity. }
  apply wp_run in H.
  destruct H as (res & evs & out & E & steps & Hsteps & -> & -> & ->).
  now exists steps.
Qed.

(* ===================================================================== *)
(** ** Attempts under assumptions on the outside *)
(* ===================================================================== *)

Ltac obeyed := intros h c; destruct c; reflexivity.

(** A call of [send_newsletter] in a world is one attempt. *)
Lemma attempt_in_functional env dir r w a a' :
  attempt_in env dir r w a -> attempt_in env dir r w a' -> a = a'.
Proof.
  unfold attempt_in. intros H H'. rewrite H in H'.
  destruct a as [b evs out], a' as [b' evs' out']. cbn in H'.
  injection H' as Hb Hevs Hout.
  apply app_inv_head in Hevs, Hout. now subst.
Qed.

Lemma attempt_both env dir r w (P Q : attempt -> Prop) :
  (exists a, attempt_in env dir r w a /\ P a) ->
  (exists a, attempt_in env dir r w a /\ Q a) ->
  exists a, attempt_in env dir r w a /\ P a /\ Q a.
Proof.
  intros (a & Ha & HP) (a' & Ha' & HQ).
  rewrite <- (attempt_in_functional _ _ _ _ _ _ Ha Ha') in HQ.
  now exists a.
Qed.

(** [server.quit()] is reached only after [server.send_message] returned. *)
Lemma quit_only_after_transmission env dir r w :
  exists a, attempt_in env dir r w a /\
            (existsb is_quit (events a) = true ->
             existsb transmitted (events a) = true).
Proof.
  apply wp_attempt. wp_exec.
  all: attempt_leaf ltac:(
         let L := fresh "L" in
         intros L; first [reflexivity | discriminate L]).
Qed.

(** An attempt that got to the connection had attached both parts, the
    plain-text one first. *)
Lemma attached_before_connection env dir r w :
  exists a, attempt_in env dir r w a /\
            (existsb is_connect (events a) = true ->
             exists html,
               In (Called FsRead (Returned html)) (events a) /\
               attached (events a) = [plain_part; MIMEText html "html"]).
Proof.
  apply wp_attempt. wp_exec.
  all: attempt_leaf ltac:(
         let L := fresh "L" in
         intros L;
         first [ discriminate L
               | eexists; split; [in_list | reflexivity] ]).
Qed.

(** With the message built and the template there, an attempt attaches
    both parts, the plain-text one first. *)
Lemma attempt_attaches_both_parts env dir r w :
  obeys env building_succeeds ->
  obeys env template_present ->
  exists a, attempt_in env dir r w a /\
            exists html,
              In (Called FsRead (Returned html)) (events a) /\
              attached (events a) = [plain_part; MIMEText html "html"].
Proof.
  intros Hb Ht. apply wp_attempt. wp_exec.
  all: attempt_leaf ltac:(eexists; split; [in_list | reflexivity]).
Qed.

(** With the template missing, an attempt fails without any SMTP call. *)
Lemma attempt_without_template env dir r w :
  obeys env template_missing ->
  exists a, attempt_in env dir r w a /\
            sent a = false /\ existsb is_smtp (events a) = false.
Proof.
  intros Hk. apply wp_attempt. wp_exec.
  all: attempt_leaf ltac:(split; reflexivity).
Qed.

(** With the authentication rejected, an attempt reaches the login, fails,
    and reports the authentication line. *)
Lemma attempt_rejected env dir r w :
  obeys env building_succeeds ->
  obeys env template_present ->
  obeys env relay_reachable ->
  obeys env authentication_rejected ->
  exists a, attempt_in env dir r w a /\
            sent a = false /\
            existsb is_login (events a) = true /\
            lines a = rejected_lines (globals w).
Proof.
  intros Hb Ht Hr Ha. apply wp_attempt. wp_exec.
  all: attempt_leaf ltac:(repeat split; reflexivity).
Qed.

(** With the authentication rejected, an attempt fails, and if it got to
    the login it prints the three lines that end with the authentication
    line. *)
Lemma attempt_rejected_at_login env dir r w :
  obeys env authentication_rejected ->
  exists a, attempt_in env dir r w a /\
            sent a = false /\
            (existsb is_login (events a) = true ->
             lines a = rejected_lines (globals w)).
Proof.
  intros Ha. apply wp_attempt. wp_exec.
  all: attempt_leaf ltac:(
         split; [reflexivity|];
         let L := fresh "L" in
         intros L; first [reflexivity | discriminate L]).
Qed.

(** With an empty template, an attempt fails at the guard: no part of the
    body is built and no SMTP call is made. *)
Lemma attempt_with_empty_template env dir r w :
  obeys env template_empty ->
  exists a, attempt_in env dir r w a /\
            sent a = false /\
            existsb is_smtp (events a) = false /\
            existsb is_mime_text (events a) = false.
Proof.
  intros Ht. apply wp_attempt. wp_exec.
  all: attempt_leaf ltac:(repeat split; reflexivity).
Qed.

(** With an undecodable template, an attempt fails without an SMTP call
    and without the line of the missing template. *)
Lemma attempt_never_blames_missing_template env dir r w :
  obeys env template_undecodable ->
  exists a, attempt_in env dir r w a /\
            sent a = false /\
            existsb is_smtp (events a) = false /\
            ~ In (template_missing_line dir) (lines a).
Proof.
  intros Ht. apply wp_attempt. wp_exec.
  all: attempt_leaf ltac:(
         split; [reflexivity|]; split; [reflexivity|];
         let L := fresh "L" in
         first [ intros [L | []]; discriminate L | intros [] ]).
Qed.

(** With an undecodable template, the error of the read leaves the loader
    and is reported by the last clause of [send_newsletter]. *)
Lemma attempt_with_undecodable_template env dir r w :
  obeys env building_succeeds ->
  obeys env template_undecodable ->
  exists a, attempt_in env dir r w a /\
            sent a = false /\
            existsb is_smtp (events a) = false /\
            exists e, isinstance e UnicodeDecodeError = true /\
                      In (Called FsRead (Raised e)) (events a) /\
                      lines a = [unexpected_line r e].
Proof.
  intros Hb Ht. apply wp_attempt. wp_exec.
  all: attempt_leaf ltac:(
         split; [reflexivity|]; split; [reflexivity|];
         eexists; split; [eassumption|]; split; [in_list | reflexivity]).
Qed.

Lemma loader_lets_decode_error_out env dir w :
  obeys env template_undecodable ->
  exists e w',
    read_html_template env dir w = (Raise e, w') /\
    isinstance e UnicodeDecodeError = true /\
    stdout w' = stdout w.
Proof.
  intros Ht.
  assert (H : wp w (read_html_template env dir) [] []
                (fun res evs out =>
                   exists e, res = Raise e /\
                             isinstance e UnicodeDecodeError = true /\
                             out = [])).
  { wp_exec. all: eexists; repeat split; eassumption. }
  apply wp_run in H. destruct H as (res & evs & out & E & e & -> & He & ->).
  exists e, (advance w evs []). repeat split; try assumption.
  cbn. now rewrite app_nil_r.
Qed.

(* ===================================================================== *)
(** ** Facts on whole runs *)
(* ===================================================================== *)

Lemma invocations_app evs1 evs2 :
  invocations (evs1 ++ evs2) = invocations evs1 ++ invocations evs2.
Proof.
  induction evs1 as [|[r | c rp] evs1 IH]; cbn; [reflexivity | | exact IH].
  now rewrite IH.
Qed.

Lemma submitted_app evs1 evs2 :
  submitted (evs1 ++ evs2) = submitted evs1 ++ submitted evs2.
Proof.
  induction evs1 as [|[r | [] rp] evs1 IH]; cbn; try exact IH; [reflexivity|].
  now rewrite IH.
Qed.

Lemma invocations_run (P : string -> attempt -> Prop) l steps :
  (forall r a, P r a -> invocations (events a) = [r]) ->
  Forall2 P l steps ->
  invocations (run_events steps) = l.
Proof.
  intros HP H. induction H as [|r a l steps Hra _ IH]; [reflexivity|].
  unfold run_events in *. cbn [flat_map].
  now rewrite invocations_app, (HP r a Hra), IH.
Qed.

Lemma submitted_run (Pm : message -> Prop) (P : string -> attempt -> Prop)
  l steps :
  (forall r a, P r a -> Forall Pm (submitted (events a))) ->
  Forall2 P l steps ->
  Forall Pm (submitted (run_events steps)).
Proof.
  intros HP H. induction H as [|r a l steps Hra _ IH]; [constructor|].
  unfold run_events in *. cbn [flat_map]. rewrite submitted_app.
  apply Forall_app. split; [exact (HP r a Hra) | exact IH].
Qed.

Lemma existsb_run (f : event -> bool) (P : string -> attempt -> Prop) l steps :
  (forall r a, P r a -> existsb f (events a) = false) ->
  Forall2 P l steps ->
  existsb f (run_events steps) = false.
Proof.
  intros HP H. induction H as [|r a l steps Hra _ IH]; [reflexivity|].
  unfold run_events in *. cbn [flat_map].
  now rewrite existsb_app, (HP r a Hra), IH.
Qed.

Lemma no_smtp_no_connect evs :
  existsb is_smtp evs = false -> existsb is_connect evs = false.
Proof.
  induction evs as [|ev evs IH]; [reflexivity|]. cbn [existsb].
  intros H. apply orb_false_iff in H. destruct H as [Hev Hevs].
  rewrite (IH Hevs), orb_false_r.
  destruct ev as [r | [] rp]; try reflexivity; discriminate Hev.
Qed.

Lemma no_match_filter {A : Type} (f : A -> bool) l :
  existsb f l = false -> filter f l = [].
Proof.
  induction l as [|x l IH]; [reflexivity|]. cbn. intros H.
  apply orb_false_iff in H. destruct H as [Hx Hl]. now rewrite Hx, IH.
Qed.

Lemma orderly_invocations r a : orderly r a -> invocations (events a) = [r].
Proof. intros ((calls & -> & Hc) & _). cbn. now rewrite Hc. Qed.

(* ===================================================================== *)
(** ** Properties of the script *)
(* ===================================================================== *)

(** C1. For every recipient list, the empty one too, [main] completes;
    every recipient of the list has had exactly one attempt, which ended
    in one outcome; the two counters add up to the length of the list;
    and the summary is the last thing printed.  With the empty list both
    counters are 0 and the summary follows the header directly. *)
Theorem main_counts_every_recipient env dir w :
  exists steps,
    ran env dir w steps /\
    Forall2 (fun r a => invocations (events a) = [r])
            (emailList (globals w)) steps /\
    successes steps + failures steps = len (emailList (globals w)) /\
    (emailList (globals w) = [] ->
     successes steps = 0 /\ failures steps = 0 /\ run_lines steps = []).
Proof.
  destruct (main_run env dir (fun _ => orderly) (every_attempt env dir) w)
    as (steps & Hsteps & Hrun).
  exists steps. split; [exact Hrun|]. split; [|split].
  - eapply Forall2_impl; [|exact Hsteps]. intros r a. apply orderly_invocations.
  - rewrite successes_failures. exact (Forall2_len _ _ _ Hsteps).
  - intros Hnil. rewrite Hnil in Hsteps. inversion Hsteps. now repeat split.
Qed.

(** C2. With the template file missing, every attempt returns failure
    without a single SMTP call, so no connection is ever opened; after
    the run [fail_count] is the length of the list and [success_count]
    is 0. *)
Theorem missing_template_fails_every_recipient env dir w :
  obeys env template_missing ->
  exists steps,
    ran env dir w steps /\
    Forall2 (fun _ a => sent a = false /\ existsb is_smtp (events a) = false)
            (emailList (globals w)) steps /\
    successes steps = 0 /\
    failures steps = len (emailList (globals w)) /\
    existsb is_connect (run_events steps) = false.
Proof.
  intros Hk.
  destruct (main_run env dir
              (fun _ _ a => sent a = false /\ existsb is_smtp (events a) = false)
              (fun r w => attempt_without_template env dir r w Hk) w)
    as (steps & Hsteps & Hrun).
  exists steps. split; [exact Hrun|]. split; [exact Hsteps|].
  destruct (all_failed _ _ _ (fun r a H => proj1 H) Hsteps) as [Hs Hf].
  repeat split; try assumption.
  apply no_smtp_no_connect.
  exact (existsb_run is_smtp _ _ _ (fun r a H => proj2 H) Hsteps).
Qed.

Lemma missing_template_fails_every_recipient_witness :
  obeys env_no_template template_missing /\
  exists steps,
    ran env_no_template scenario_dir (start ["a@x.com"]) steps /\
    Forall2 (fun _ a => sent a = false /\ existsb is_smtp (events a) = false)
            ["a@x.com"] steps /\
    successes steps = 0 /\
    failures steps = 1 /\
    existsb is_connect (run_events steps) = false.
Proof.
  split; [obeyed|].
  apply (missing_template_fails_every_recipient
           env_no_template scenario_dir (start ["a@x.com"])).
  obeyed.
Defined.

Lemma not_the_other_reasons g r e' :
  ~ In (smtp_error_line e') (rejected_lines g) /\
  ~ In (unexpected_line r e') (rejected_lines g).
Proof.
  split; intros [H | [H | [H | []]]]; discriminate H.
Qed.

(** C3. With a relay that rejects the credential at every login, every
    attempt fails; the run goes on to the next recipient each time, and
    after it [fail_count] is the length of the list and [success_count]
    is 0.  An attempt that got to the login reports the authentication
    reason and neither the SMTP nor the unexpected one; and every attempt
    gets to the login when the message can be built, the template is
    there and the relay is reachable. *)
Theorem rejected_authentication_fails_every_recipient env dir w :
  obeys env authentication_rejected ->
  exists steps,
    ran env dir w steps /\
    successes steps = 0 /\
    failures steps = len (emailList (globals w)) /\
    Forall2 (fun r a =>
               sent a = false /\
               (existsb is_login (events a) = true ->
                lines a = rejected_lines (globals w) /\
                In authentication_line (lines a) /\
                forall e, ~ In (smtp_error_line e) (lines a) /\
                          ~ In (unexpected_line r e) (lines a)) /\
               (obeys env building_succeeds ->
                obeys env template_present ->
                obeys env relay_reachable ->
                existsb is_login (events a) = true))
            (emailList (globals w)) steps.
Proof.
  intros Ha.
  destruct (main_run env dir
              (fun g _ a =>
                 (sent a = false /\
                  (existsb is_login (events a) = true ->
                   lines a = rejected_lines g)) /\
                 (obeys env building_succeeds ->
                  obeys env template_present ->
                  obeys env relay_reachable ->
                  existsb is_login (events a) = true))) with (w := w)
    as (steps & Hsteps & Hrun).
  { intros r w0.
    apply attempt_both; [exact (attempt_rejected_at_login env dir r w0 Ha)|].
    destruct (every_attempt env dir r w0) as (a & Hin & _).
    exists a. split; [exact Hin|]. intros Hb Ht Hr.
    destruct (attempt_rejected env dir r w0 Hb Ht Hr Ha) as (a' & Hin' & _ & Hl & _).
    now rewrite (attempt_in_functional _ _ _ _ _ _ Hin Hin'). }
  exists steps. split; [exact Hrun|].
  destruct (all_failed _ _ _ (fun r a H => proj1 (proj1 H)) Hsteps) as [Hs Hf].
  split; [exact Hs|]. split; [exact Hf|].
  eapply Forall2_impl; [|exact Hsteps].
  intros r a ((Hsent & Hlines) & Hreach).
  split; [assumption|]. split; [|assumption].
  intros Hlogin. rewrite (Hlines Hlogin). split; [reflexivity|]. split.
  - right; right; left; reflexivity.
  - intros e. apply not_the_other_reasons.
Qed.

Lemma rejected_authentication_fails_every_recipient_witness :
  obeys env_auth_rejected authentication_rejected /\
  exists steps,
    ran env_auth_rejected scenario_dir (start ["a@x.com"; "b@x.com"]) steps /\
    successes steps = 0 /\
    failures steps = 2 /\
    Forall2 (fun r a =>
               sent a = false /\
               (existsb is_login (events a) = true ->
                lines a = rejected_lines (scenario_globals ["a@x.com"; "b@x.com"]) /\
                In authentication_line (lines a) /\
                forall e, ~ In (smtp_error_line e) (lines a) /\
                          ~ In (unexpected_line r e) (lines a)) /\
               (obeys env_auth_rejected building_succeeds ->
                obeys env_auth_rejected template_present ->
                obeys env_auth_rejected relay_reachable ->
                existsb is_login (events a) = true))
            ["a@x.com"; "b@x.com"] steps.
Proof.
  split; [obeyed|].
  apply (rejected_authentication_fails_every_recipient
           env_auth_rejected scenario_dir (start ["a@x.com"; "b@x.com"])).
  obeyed.
Defined.

(** C4. The attempt at the three inputs where a connection was opened and
    a later step raised: the upgrade, the login, the transmission.  Each
    time the attempt returns failure with the connection opened and
    [server.quit()] never called, whereas it is called when everything
    before it returned.  For every behaviour of the outside,
    [server.quit()] is called only in an attempt whose transmission
    returned. *)
Theorem failed_attempt_leaves_session_open :
  Forall
    (fun env =>
       let run := send_newsletter env scenario_dir "a@x.com" (start ["a@x.com"]) in
       fst run = Return false /\
       existsb connect_returned (history (snd run)) = true /\
       existsb is_quit (history (snd run)) = false)
    [env_upgrade_fails; env_auth_rejected; env_recipient_refused] /\
  (let run := send_newsletter env_delivers scenario_dir "a@x.com" (start ["a@x.com"]) in
   fst run = Return true /\
   existsb connect_returned (history (snd run)) = true /\
   existsb is_quit (history (snd run)) = true) /\
  (forall env dir r w,
     exists a, attempt_in env dir r w a /\
               (existsb is_quit (events a) = true ->
                existsb transmitted (events a) = true)).
Proof.
  split; [repeat constructor; now vm_compute|].
  split; [now vm_compute|].
  exact quit_only_after_transmission.
Qed.

(** C5. For every recipient and whatever the template holds, what an
    attempt attaches starts with the part made of the literal
    [text_content], and every message it hands to the relay has exactly
    two parts: that plain-text part, then the text read from the template
    as HTML.  The plain-text part is there: an attempt that gets as far as
    the connection has attached exactly these two parts, and so has every
    attempt when the message can be built and the template is there.  So
    has every message handed to the relay in a run of [main]. *)
Theorem plain_text_body_is_fixed env dir :
  (forall r w,
     exists a,
       attempt_in env dir r w a /\
       plain_first (attached (events a)) /\
       Forall
         (fun m =>
            exists html,
              In (Called FsRead (Returned html)) (events a) /\
              parts m = [MIMEText text_content "plain"; MIMEText html "html"])
         (submitted (events a)) /\
       (existsb is_connect (events a) = true ->
        exists html,
          In (Called FsRead (Returned html)) (events a) /\
          attached (events a)
          = [MIMEText text_content "plain"; MIMEText html "html"]) /\
       (obeys env building_succeeds ->
        obeys env template_present ->
        exists html,
          In (Called FsRead (Returned html)) (events a) /\
          attached (events a)
          = [MIMEText text_content "plain"; MIMEText html "html"])) /\
  (forall w,
     exists steps,
       ran env dir w steps /\
       Forall
         (fun m =>
            exists html,
              parts m = [MIMEText text_content "plain"; MIMEText html "html"])
         (submitted (run_events steps))).
Proof.
  split.
  - intros r w.
    destruct (attempt_both env dir r w _ _
                (every_attempt env dir r w)
                (attached_before_connection env dir r w))
      as (a & Ha & (_ & Hfirst & Hsub) & Hconn).
    exists a. split; [exact Ha|]. split; [exact Hfirst|].
    split; [exact Hsub|]. split; [exact Hconn|].
    intros Hb Ht.
    destruct (attempt_attaches_both_parts env dir r w Hb Ht) as (a' & Ha' & H).
    now rewrite (attempt_in_functional _ _ _ _ _ _ Ha Ha').
  - intros w.
    destruct (main_run env dir (fun _ => orderly) (every_attempt env dir) w)
      as (steps & Hsteps & Hrun).
    exists steps. split; [exact Hrun|].
    apply (submitted_run _ orderly (emailList (globals w))); [|exact Hsteps].
    intros r a (_ & _ & Hsub). eapply Forall_impl; [|exact Hsub].
    intros m (html & _ & Hparts). now exists html.
Qed.

Lemma plain_text_body_is_fixed_witness :
  obeys env_delivers building_succeeds /\
  obeys env_delivers template_present /\
  exists a html,
    attempt_in env_delivers scenario_dir "a@x.com" (start ["a@x.com"]) a /\
    In (Called FsRead (Returned html)) (events a) /\
    attached (events a)
    = [MIMEText text_content "plain"; MIMEText html "html"].
Proof.
  split; [obeyed|]. split; [obeyed|].
  destruct (proj1 (plain_text_body_is_fixed env_delivers scenario_dir)
              "a@x.com" (start ["a@x.com"]))
    as (a & Ha & _ & _ & _ & Hboth).
  destruct Hboth as (html & Hin & Hatt); [obeyed | obeyed |].
  exists a, html. split; [exact Ha|]. split; [exact Hin | exact Hatt].
Defined.

(** C6. For every recipient list, [main] calls [send_newsletter] once per
    element, one call after the other, in the order of the list: the
    history of the run is the attempts laid end to end, each starting
    with the entry for its element and containing no other entry, so the
    arguments of the calls, read off the history, are the list itself,
    repeated addresses included. *)
Theorem recipients_attempted_in_list_order env dir w :
  exists steps,
    ran env dir w steps /\
    Forall2 (fun r a =>
               exists calls,
                 events a = Invoked r :: calls /\ invocations calls = [])
            (emailList (globals w)) steps /\
    invocations (run_events steps) = emailList (globals w).
Proof.
  destruct (main_run env dir (fun _ => orderly) (every_attempt env dir) w)
    as (steps & Hsteps & Hrun).
  exists steps. split; [exact Hrun|]. split.
  - eapply Forall2_impl; [|exact Hsteps]. now intros r a (H & _).
  - exact (invocations_run orderly _ _ orderly_invocations Hsteps).
Qed.

(** C7. Whatever the template read, the building of the message and the
    transport do, raising included, [send_newsletter] returns a boolean
    and raises nothing; so [main] returns too, after one attempt per
    recipient, with the summary as the last lines of its output. *)
Theorem send_newsletter_never_raises env dir :
  (forall r w, exists b w', send_newsletter env dir r w = (Return b, w')) /\
  (forall w, exists success_count fail_count before w',
      main env dir w = (Return tt, w') /\
      success_count + fail_count = len (emailList (globals w)) /\
      stdout w' = before ++ summary_lines success_count fail_count).
Proof.
  split.
  - intros r w. destruct (every_attempt env dir r w) as (a & Ha & _).
    now exists (sent a), (advance w (events a) (lines a)).
  - intros w.
    destruct (main_run env dir (fun _ => orderly) (every_attempt env dir) w)
      as (steps & Hsteps & Hrun).
    exists (successes steps), (failures steps),
      (stdout w ++ header_lines (globals w) ++ run_lines steps).
    eexists. split; [exact Hrun|]. split.
    + rewrite successes_failures. exact (Forall2_len _ _ _ Hsteps).
    + cbn [stdout advance]. now rewrite <- !app_assoc.
Qed.

(** C8. With a template file that is there and empty, the guard takes the
    branch it takes for [None]: the attempt returns failure, no part of
    the body is built and no SMTP call is made, so no connection is
    attempted; this is the value and the SMTP traffic of an attempt with
    the file missing. *)
Theorem empty_template_fails_like_missing env dir r w :
  obeys env template_empty ->
  py_not (Some "") = py_not None /\
  exists a,
    attempt_in env dir r w a /\
    sent a = false /\
    existsb is_smtp (events a) = false /\
    existsb is_connect (events a) = false /\
    existsb is_mime_text (events a) = false /\
    forall env', obeys env' template_missing ->
      exists a', attempt_in env' dir r w a' /\
                 sent a' = sent a /\
                 filter is_smtp (events a') = filter is_smtp (events a).
Proof.
  intros Ht. split; [reflexivity|].
  destruct (attempt_with_empty_template env dir r w Ht)
    as (a & Ha & Hsent & Hsmtp & Htext).
  exists a. repeat split; try assumption.
  - now apply no_smtp_no_connect.
  - intros env' Hm.
    destruct (attempt_without_template env' dir r w Hm) as (a' & Ha' & Hs' & Hn').
    exists a'. split; [exact Ha'|]. split; [congruence|].
    rewrite (no_match_filter _ _ Hn'), (no_match_filter _ _ Hsmtp). reflexivity.
Qed.

Lemma empty_template_fails_like_missing_witness :
  obeys env_empty_template template_empty /\
  py_not (Some "") = py_not None /\
  exists a,
    attempt_in env_empty_template scenario_dir "a@x.com" (start ["a@x.com"]) a /\
    sent a = false /\
    existsb is_smtp (events a) = false /\
    existsb is_connect (events a) = false /\
    existsb is_mime_text (events a) = false /\
    forall env', obeys env' template_missing ->
      exists a', attempt_in env' scenario_dir "a@x.com" (start ["a@x.com"]) a' /\
                 sent a' = sent a /\
                 filter is_smtp (events a') = filter is_smtp (events a).
Proof.
  split; [obeyed|].
  apply (empty_template_fails_like_missing
           env_empty_template scenario_dir "a@x.com" (start ["a@x.com"])).
  obeyed.
Defined.

(** C9. With a template file that is there and is not UTF-8, the loader
    does not handle the error of the read: the error leaves
    [read_html_template], which prints nothing.  The attempt returns
    failure, makes no SMTP call, so attempts no connection, and never
    prints the line of the missing template; when the message headers
    can be built, so that the template is read, it is the last clause of
    [send_newsletter] that catches the error, and the one line printed
    is the unexpected-error line with the text of that error. *)
Theorem undecodable_template_reported_as_unexpected env dir r w :
  obeys env template_undecodable ->
  (exists e w',
     read_html_template env dir w = (Raise e, w') /\
     isinstance e UnicodeDecodeError = true /\
     stdout w' = stdout w) /\
  exists a,
    attempt_in env dir r w a /\
    sent a = false /\
    existsb is_connect (events a) = false /\
    ~ In (template_missing_line dir) (lines a) /\
    (obeys env building_succeeds ->
     exists e,
       isinstance e UnicodeDecodeError = true /\
       In (Called FsRead (Raised e)) (events a) /\
       lines a = [unexpected_line r e]).
Proof.
  intros Ht. split; [now apply loader_lets_decode_error_out|].
  destruct (attempt_never_blames_missing_template env dir r w Ht)
    as (a & Ha & Hsent & Hsmtp & Hline).
  exists a. repeat split; try assumption.
  - now apply no_smtp_no_connect.
  - intros Hb.
    destruct (attempt_with_undecodable_template env dir r w Hb Ht)
      as (a' & Ha' & _ & _ & He).
    now rewrite (attempt_in_functional _ _ _ _ _ _ Ha Ha').
Qed.

Lemma undecodable_template_reported_as_unexpected_witness :
  obeys env_undecodable template_undecodable /\
  (exists e w',
     read_html_template env_undecodable scenario_dir (start ["a@x.com"])
     = (Raise e, w') /\
     isinstance e UnicodeDecodeError = true /\
     stdout w' = stdout (start ["a@x.com"])) /\
  exists a,
    attempt_in env_undecodable scenario_dir "a@x.com" (start ["a@x.com"]) a /\
    sent a = false /\
    existsb is_connect (events a) = false /\
    ~ In (template_missing_line scenario_dir) (lines a) /\
    (obeys env_undecodable building_succeeds ->
     exists e,
       isinstance e UnicodeDecodeError = true /\
       In (Called FsRead (Raised e)) (events a) /\
       lines a = [unexpected_line "a@x.com" e]).
Proof.
  split; [obeyed|].
  apply (undecodable_template_reported_as_unexpected
           env_undecodable scenario_dir "a@x.com" (start ["a@x.com"])).
  obeyed.
Defined.

(** C10. No function of the script writes a module-level name: after
    [read_html_template], after [send_newsletter] and after a full run of
    [main], the sender address, the credential, the recipient list, the
    subject and the display name are what they were. *)
Theorem globals_never_written env dir w :
  globals (snd (read_html_template env dir w)) = globals w /\
  (forall r, globals (snd (send_newsletter env dir r w)) = globals w) /\
  globals (snd (main env dir w)) = globals w.
Proof.
  split; [|split].
  - assert (H : wp w (read_html_template env dir) [] [] (fun _ _ _ => True)).
    { wp_exec; exact I. }
    apply wp_run in H. destruct H as (res & evs & out & E & _).
    now rewrite E.
  - intros r. destruct (every_attempt env dir r w) as (a & Ha & _).
    unfold attempt_in in Ha. now rewrite Ha.
  - destruct (main_run env dir (fun _ => orderly) (every_attempt env dir) w)
      as (steps & _ & Hrun).
    now rewrite Hrun.
Qed.

(* ===================================================================== *)
(** ** The scenarios of the specification, run *)
(* ===================================================================== *)

(** Scenario 1: two recipients, everything works.  Two messages reach the
    relay, addressed in list order, and the summary counts 2 and 0. *)
Example scenario_all_delivered :
  let w' := snd (main env_delivers scenario_dir (start ["a@x.com"; "b@x.com"])) in
  map (header "To") (submitted (history w')) = [Some "a@x.com"; Some "b@x.com"] /\
  filter (fun s => String.prefix "✓ Successfully" s) (stdout w')
  = ["✓ Successfully sent to a@x.com"; "✓ Successfully sent to b@x.com"] /\
  skipn (length (stdout w') - 5) (stdout w') = summary_lines 2 0.
Proof. now vm_compute. Qed.

(** Scenario 4: no recipient.  The output is the header and the summary. *)
Example scenario_no_recipient :
  main env_delivers scenario_dir (start [])
  = (Return tt,
     advance (start []) []
       (header_lines (scenario_globals []) ++ summary_lines 0 0)).
Proof. now vm_compute. Qed.

(** An address listed twice is attempted twice, in its two positions. *)
Example scenario_repeated_address :
  invocations
    (history (snd (main env_delivers scenario_dir
                     (start ["a@x.com"; "b@x.com"; "a@x.com"]))))
  = ["a@x.com"; "b@x.com"; "a@x.com"].
Proof. now vm_compute. Qed.

(* ===================================================================== *)
(** ** Further properties: the template loader *)
(* ===================================================================== *)

Ltac use_class_facts :=
  repeat match goal with
         | H : isinstance ?e ?c = _ |- context [isinstance ?e ?c] => rewrite H
         end.

(** X1. Lines 20-25, whatever the file system does: the loader returns
    the text that [read] returned and prints nothing; or it returns
    [None], after an error of class [FileNotFoundError], and prints the
    one line that names the file; or it raises an error of another class,
    the last one raised, and prints nothing. *)
Theorem loader_outcomes env dir w :
  exists res evs out,
    read_html_template env dir w = (res, advance w evs out) /\
    match res with
    | Return (Some s) =>
        In (Called FsRead (Returned s)) evs /\ last_raised evs = None /\
        out = []
    | Return None =>
        (exists e, last_raised evs = Some e /\
                   isinstance e FileNotFoundError = true) /\
        out = [template_missing_line dir]
    | Raise e =>
        last_raised evs = Some e /\
        isinstance e FileNotFoundError = false /\
        out = []
    end.
Proof.
  apply wp_run. wp_exec.
  all: cbv beta iota; cbn [last_raised].
  all: repeat split; try reflexivity; try assumption; try in_list.
  all: eexists; split; [reflexivity | assumption].
Qed.

(** X2. Lines 21-22: the loader opens the file beside the script and no
    other; when the [open] raised it neither reads nor closes; when the
    [open] returned it reads once and then closes once, also when the
    read raised. *)
Theorem loader_closes_what_it_opened env dir w :
  exists res evs out,
    read_html_template env dir w = (res, advance w evs out) /\
    exists r_open,
      (evs = [Called (FsOpen (html_file dir)) r_open] /\ returned r_open = false) \/
      ((exists r_read r_close,
          evs = [ Called (FsOpen (html_file dir)) r_open;
                  Called FsRead r_read;
                  Called FsClose r_close ]) /\
       returned r_open = true).
Proof.
  apply wp_run. wp_exec.
  all: cbv beta iota; eexists.
  all: first [ left; split; reflexivity
             | right; split; [do 2 eexists; reflexivity | reflexivity] ].
Qed.

(* ===================================================================== *)
(** ** Further properties: one attempt *)
(* ===================================================================== *)

Ltac follows_session :=
  cbn [smtp_session events follows session_steps is_smtp];
  repeat match goal with
         | |- _ /\ _ => split
         | |- True => exact I
         | |- _ = _ => reflexivity
         | |- _ \/ _ => first [left; reflexivity | right; reflexivity]
         | |- exists _, _ => eexists; reflexivity
         end.

(** X3. Lines 31-34 and 83: every message an attempt hands to the relay
    is a [multipart/alternative] whose header fields are, in this order,
    the two the constructor sets, [Content-Type] and [MIME-Version], then
    [From] with the display name and the sender address in angle brackets,
    [To] with the recipient the attempt was called for, and [Subject];
    so the only [To] of the message is that recipient. *)
Theorem message_is_addressed_to_its_recipient env dir r w :
  exists a,
    attempt_in env dir r w a /\
    Forall
      (fun m =>
         multipart_subtype m = "alternative" /\
         headers m
         = [ ("Content-Type", "multipart/alternative");
             ("MIME-Version", "1.0");
             ("From", (from_name (globals w) ++ " <" ++ email (globals w) ++ ">")%string);
             ("To", r);
             ("Subject", subject (globals w)) ] /\
         map snd (filter (fun kv => String.eqb (fst kv) "To") (headers m)) = [r])
      (submitted (events a)).
Proof.
  apply wp_attempt. wp_exec.
  all: attempt_leaf ltac:(
         cbn [submitted events];
         first [ apply Forall_nil
               | apply Forall_cons;
                 [repeat split; reflexivity | apply Forall_nil] ]).
Qed.

(** X4. Lines 74-86: the calls an attempt makes to the relay are the
    first calls of one session: connect to smtp.gmail.com on port 587,
    upgrade, log in with the module's address and credential, send one
    message, quit.  Each is made at most once and only after the one
    before it returned; so the credential is never presented before the
    upgrade returned, and nothing is retried. *)
Theorem session_is_linear env dir r w :
  exists a,
    attempt_in env dir r w a /\
    follows (session_steps (globals w)) (smtp_session (events a)).
Proof.
  apply wp_attempt. wp_exec.
  all: attempt_leaf ltac:(follows_session).
Qed.

Ltac not_among :=
  let L := fresh "L" in
  intros L;
  repeat (destruct L as [L | L]; [discriminate L|]);
  exact L.

(** X5. Lines 86-89: an attempt returns [True] exactly when
    [server.quit()] returned; then it has printed the four lines that end
    with the success line, and otherwise it has not printed the success
    line. *)
Theorem success_means_session_ended env dir r w :
  exists a,
    attempt_in env dir r w a /\
    (sent a = true <-> existsb quit_returned (events a) = true) /\
    (sent a = true -> lines a = delivered_lines (globals w) r) /\
    (sent a = false -> ~ In (success_line r) (lines a)).
Proof.
  apply wp_attempt. wp_exec.
  all: attempt_leaf ltac:(
         split; [split; let L := fresh "L" in
                        intros L; first [reflexivity | discriminate L]|];
         split; [let L := fresh "L" in
                 intros L; first [reflexivity | discriminate L]|];
         let L := fresh "L" in
         intros L; first [discriminate L | not_among]).
Qed.

Ltac report_line :=
  solve [ split; [reflexivity|];
          unfold failure_line; use_class_facts; reflexivity ].

(** X6. Lines 91-99: an attempt that fails prints nothing (the template
    was empty), or the line of the missing template and nothing else, or
    ends its output with the line that reports the exception raised last:
    the authentication line for an [SMTPAuthenticationError], the SMTP
    line with the text of the error for any other [SMTPException], and
    the unexpected-error line with the recipient and the text of the
    error for everything else. *)
Theorem failure_is_reported_by_class env dir r w :
  exists a,
    attempt_in env dir r w a /\
    (sent a = true \/
     lines a = [] \/
     lines a = [template_missing_line dir] \/
     exists e before,
       last_raised (events a) = Some e /\
       lines a = before ++ [failure_line r e]).
Proof.
  apply wp_attempt. wp_exec.
  all: attempt_leaf ltac:(
         first
           [ left; reflexivity
           | right; left; reflexivity
           | right; right; left; reflexivity
           | right; right; right; eexists;
             first [ exists []; report_line
                   | eexists [_]; report_line
                   | eexists [_; _]; report_line
                   | eexists [_; _; _]; report_line ] ]).
Qed.

(** With every call returning but the last, an attempt transmits and
    fails. *)
Lemma attempt_with_failing_quit env dir r w :
  obeys env building_succeeds ->
  obeys env template_present ->
  obeys env relay_reachable ->
  obeys env relay_accepts ->
  obeys env quit_raises ->
  exists a, attempt_in env dir r w a /\
            sent a = false /\
            existsb transmitted (events a) = true /\
            exists e,
              last_raised (events a) = Some e /\
              lines a
              = [ "Connecting to Gmail SMTP server...";
                  ("Logging in as " ++ email (globals w) ++ "...")%string;
                  ("Sending newsletter to " ++ r ++ "...")%string;
                  failure_line r e ].
Proof.
  intros Hb Ht Hr Ha Hq. apply wp_attempt. wp_exec.
  all: attempt_leaf ltac:(
         split; [reflexivity|]; split; [reflexivity|];
         eexists; split; [reflexivity|];
         unfold failure_line; use_class_facts; reflexivity).
Qed.

(** X7. Lines 83-89: when everything up to the transmission returns and
    [server.quit()] raises, the message has been handed to the relay and
    accepted, yet the attempt returns [False]: it prints a failure line
    for the error of the quit instead of the success line, and [main]
    counts the recipient as failed. *)
Theorem failing_quit_counts_a_sent_message_as_failed env dir w :
  obeys env building_succeeds ->
  obeys env template_present ->
  obeys env relay_reachable ->
  obeys env relay_accepts ->
  obeys env quit_raises ->
  exists steps,
    ran env dir w steps /\
    successes steps = 0 /\
    failures steps = len (emailList (globals w)) /\
    Forall2 (fun r a =>
               sent a = false /\
               existsb transmitted (events a) = true /\
               ~ In (success_line r) (lines a) /\
               exists e, last_raised (events a) = Some e /\
                         last (lines a) "" = failure_line r e)
            (emailList (globals w)) steps.
Proof.
  intros Hb Ht Hr Ha Hq.
  destruct (main_run env dir
              (fun g r a =>
                 sent a = false /\
                 existsb transmitted (events a) = true /\
                 exists e,
                   last_raised (events a) = Some e /\
                   lines a
                   = [ "Connecting to Gmail SMTP server...";
                       ("Logging in as " ++ email g ++ "...")%string;
                       ("Sending newsletter to " ++ r ++ "...")%string;
                       failure_line r e ])
              (fun r w => attempt_with_failing_quit env dir r w Hb Ht Hr Ha Hq) w)
    as (steps & Hsteps & Hrun).
  exists steps. split; [exact Hrun|].
  destruct (all_failed _ _ _ (fun r a H => proj1 H) Hsteps) as [Hs Hf].
  split; [exact Hs|]. split; [exact Hf|].
  eapply Forall2_impl; [|exact Hsteps].
  intros r a (Hsent & Htx & e & He & Hlines).
  split; [assumption|]. split; [assumption|]. split.
  - rewrite Hlines. intros [L | [L | [L | [L | []]]]]; try discriminate L.
    revert L. unfold failure_line, authentication_line, smtp_error_line,
      unexpected_line, success_line.
    destruct (isinstance e SMTPAuthenticationError);
      [|destruct (isinstance e SMTPException)]; discriminate.
  - exists e. split; [assumption|]. now rewrite Hlines.
Qed.

Lemma failing_quit_counts_a_sent_message_as_failed_witness :
  exists steps,
    ran env_quit_fails scenario_dir (start ["a@x.com"]) steps /\
    successes steps = 0 /\
    failures steps = 1 /\
    Forall2 (fun r a =>
               sent a = false /\
               existsb transmitted (events a) = true /\
               ~ In (success_line r) (lines a) /\
               exists e, last_raised (events a) = Some e /\
                         last (lines a) "" = failure_line r e)
            ["a@x.com"] steps.
Proof.
  apply (failing_quit_counts_a_sent_message_as_failed
           env_quit_fails scenario_dir (start ["a@x.com"]));
    obeyed.
Defined.

(* ===================================================================== *)
(** ** Further properties: whole runs *)
(* ===================================================================== *)

Lemma all_succeeded (l : list string) steps (P : string -> attempt -> Prop) :
  (forall r a, P r a -> sent a = true) ->
  Forall2 P l steps ->
  successes steps = len l /\ failures steps = 0.
Proof.
  intros HP H. induction H as [|r a l steps Hra _ [IHs IHf]]; [now split|].
  rewrite successes_cons, failures_cons, (HP r a Hra), IHs, IHf.
  unfold len. cbn [length]. lia.
Qed.

Lemma attempt_delivers env dir r w :
  obeys env everything_returns ->
  exists a, attempt_in env dir r w a /\
            sent a = true /\
            lines a = delivered_lines (globals w) r /\
            map (header "To") (submitted (events a)) = [Some r].
Proof.
  intros Hk. apply wp_attempt. wp_exec.
  all: attempt_leaf ltac:(repeat split; reflexivity).
Qed.

Lemma delivered_run (P : string -> attempt -> Prop) l steps :
  (forall r a, P r a -> map (header "To") (submitted (events a)) = [Some r]) ->
  Forall2 P l steps ->
  map (header "To") (submitted (run_events steps)) = map Some l.
Proof.
  intros HP H. induction H as [|r a l steps Hra _ IH]; [reflexivity|].
  unfold run_events in *. cbn [flat_map map].
  now rewrite submitted_app, map_app, (HP r a Hra), IH.
Qed.

Lemma lines_run (f : string -> list string) (P : string -> attempt -> Prop)
  l steps :
  (forall r a, P r a -> lines a = f r) ->
  Forall2 P l steps ->
  run_lines steps = flat_map (fun r => f r ++ [""]) l.
Proof.
  intros HP H. induction H as [|r a l steps Hra _ IH]; [reflexivity|].
  unfold run_lines in *. cbn [flat_map]. now rewrite (HP r a Hra), IH.
Qed.

(** X8. Lines 115-126 over lines 27-89: when every call returns and the
    template holds some text, every recipient of the list is delivered
    to: [success_count] is the length of the list and [fail_count] is 0,
    the relay is handed one message per recipient, addressed to the
    recipients in list order, and the output between header and summary
    is, per recipient, the four lines of a delivery and an empty line. *)
Theorem run_delivers_to_everyone env dir w :
  obeys env everything_returns ->
  exists steps,
    ran env dir w steps /\
    successes steps = len (emailList (globals w)) /\
    failures steps = 0 /\
    map (header "To") (submitted (run_events steps))
    = map Some (emailList (globals w)) /\
    run_lines steps
    = flat_map (fun r => delivered_lines (globals w) r ++ [""])
               (emailList (globals w)).
Proof.
  intros Hk.
  destruct (main_run env dir
              (fun g r a =>
                 sent a = true /\
                 lines a = delivered_lines g r /\
                 map (header "To") (submitted (events a)) = [Some r])
              (fun r w => attempt_delivers env dir r w Hk) w)
    as (steps & Hsteps & Hrun).
  exists steps. split; [exact Hrun|].
  destruct (all_succeeded _ _ _ (fun r a H => proj1 H) Hsteps) as [Hs Hf].
  split; [exact Hs|]. split; [exact Hf|]. split.
  - exact (delivered_run _ _ _ (fun r a H => proj2 (proj2 H)) Hsteps).
  - exact (lines_run (delivered_lines (globals w)) _ _ _
             (fun r a H => proj1 (proj2 H)) Hsteps).
Qed.

Lemma run_delivers_to_everyone_witness :
  exists steps,
    ran env_delivers scenario_dir (start ["a@x.com"; "b@x.com"]) steps /\
    successes steps = 2 /\
    failures steps = 0 /\
    map (header "To") (submitted (run_events steps))
    = [Some "a@x.com"; Some "b@x.com"] /\
    run_lines steps
    = flat_map (fun r => delivered_lines (scenario_globals ["a@x.com"; "b@x.com"]) r ++ [""])
               ["a@x.com"; "b@x.com"].
Proof.
  apply (run_delivers_to_everyone
           env_delivers scenario_dir (start ["a@x.com"; "b@x.com"])).
  obeyed.
Defined.

(** An attempt prints the success line once if it returns [True] and not
    at all otherwise. *)
Lemma attempt_success_lines env dir r w :
  exists a, attempt_in env dir r w a /\
            length (filter is_success_line (lines a))
            = if sent a then 1%nat else 0%nat.
Proof.
  apply wp_attempt. wp_exec.
  all: attempt_leaf ltac:(reflexivity).
Qed.

Lemma success_lines_run (P : string -> attempt -> Prop) l steps :
  (forall r a, P r a ->
     length (filter is_success_line (lines a))
     = if sent a then 1%nat else 0%nat) ->
  Forall2 P l steps ->
  len (filter is_success_line (run_lines steps)) = successes steps.
Proof.
  intros HP H. induction H as [|r a l steps Hra _ IH]; [reflexivity|].
  unfold run_lines in *. cbn [flat_map].
  rewrite successes_cons, <- IH. unfold len.
  rewrite !filter_app, !length_app, (HP r a Hra).
  cbn [filter is_success_line starts_with length].
  destruct (sent a); lia.
Qed.

(** X9. Lines 88 and 115-124: in a run, whatever happened, the number of
    [print] calls whose text starts with the words of the success line is
    the [success_count] the summary reports; no call that prints a header,
    progress, failure or summary text is taken for one.  The count is of
    calls, each with its whole text: a text that holds a line feed is one
    call. *)
Theorem log_agrees_with_success_count env dir w :
  exists steps,
    ran env dir w steps /\
    len (filter is_success_line
           (header_lines (globals w) ++ run_lines steps
            ++ summary_lines (successes steps) (failures steps)))
    = successes steps.
Proof.
  destruct (main_run env dir
              (fun _ _ a =>
                 length (filter is_success_line (lines a))
                 = if sent a then 1%nat else 0%nat)
              (attempt_success_lines env dir) w)
    as (steps & Hsteps & Hrun).
  exists steps. split; [exact Hrun|].
  rewrite <- (success_lines_run _ _ _ (fun r a H => H) Hsteps) at 2.
  unfold len. rewrite !filter_app, !length_app.
  replace (filter is_success_line (header_lines (globals w))) with (@nil string)
    by reflexivity.
  replace (filter is_success_line
             (summary_lines (successes steps) (failures steps)))
    with (@nil string) by reflexivity.
  cbn [length]. lia.
Qed.

(** With an empty template and the headers built, an attempt fails and
    prints nothing. *)
Lemma attempt_fails_in_silence env dir r w :
  obeys env building_succeeds ->
  obeys env template_empty ->
  exists a, attempt_in env dir r w a /\ sent a = false /\ lines a = [].
Proof.
  intros Hb Ht. apply wp_attempt. wp_exec.
  all: attempt_leaf ltac:(split; reflexivity).
Qed.

(** X10. Lines 38-39 and 115-126: with a template file that is there and
    empty (and the headers built), every recipient is counted as failed
    and no reason is printed for any of them: between header and summary
    the output holds the empty separator lines and nothing else. *)
Theorem empty_template_fails_without_a_word env dir w :
  obeys env building_succeeds ->
  obeys env template_empty ->
  exists steps,
    ran env dir w steps /\
    successes steps = 0 /\
    failures steps = len (emailList (globals w)) /\
    run_lines steps = repeat "" (length (emailList (globals w))).
Proof.
  intros Hb Ht.
  destruct (main_run env dir
              (fun _ _ a => sent a = false /\ lines a = [])
              (fun r w => attempt_fails_in_silence env dir r w Hb Ht) w)
    as (steps & Hsteps & Hrun).
  exists steps. split; [exact Hrun|].
  destruct (all_failed _ _ _ (fun r a H => proj1 H) Hsteps) as [Hs Hf].
  split; [exact Hs|]. split; [exact Hf|].
  rewrite (lines_run (fun _ => []) _ _ _ (fun r a H => proj2 H) Hsteps).
  generalize (emailList (globals w)). clear. intros l.
  induction l as [|x l IH]; [reflexivity|].
  cbn [flat_map app length repeat]. f_equal. exact IH.
Qed.

Lemma empty_template_fails_without_a_word_witness :
  exists steps,
    ran env_empty_template scenario_dir (start ["a@x.com"; "b@x.com"]) steps /\
    successes steps = 0 /\
    failures steps = 2 /\
    run_lines steps = [""; ""].
Proof.
  apply (empty_template_fails_without_a_word
           env_empty_template scenario_dir (start ["a@x.com"; "b@x.com"]));
    obeyed.
Defined.

Lemma opened_app evs1 evs2 :
  opened (evs1 ++ evs2) = opened evs1 ++ opened evs2.
Proof.
  induction evs1 as [|[r | [] rp] evs1 IH]; cbn; try exact IH; [reflexivity|].
  now rewrite IH.
Qed.

Lemma opened_run (P : string -> attempt -> Prop) (path : string) l steps :
  (forall r a, P r a -> opened (events a) = [path]) ->
  Forall2 P l steps ->
  opened (run_events steps) = repeat path (length l).
Proof.
  intros HP H. induction H as [|r a l steps Hra _ IH]; [reflexivity|].
  unfold run_events in *. cbn [flat_map length repeat].
  now rewrite opened_app, (HP r a Hra), IH.
Qed.

Lemma attempt_opens_template_once env dir r w :
  obeys env building_succeeds ->
  exists a, attempt_in env dir r w a /\ opened (events a) = [html_file dir].
Proof.
  intros Hb. apply wp_attempt. wp_exec.
  all: attempt_leaf ltac:(reflexivity).
Qed.

(** X11. Lines 37 and 115-116: the template is not read once for the run
    but once for every recipient: when the headers can be built, a run
    over n recipients opens the file beside the script n times, and no
    other file. *)
Theorem template_is_opened_once_per_recipient env dir w :
  obeys env building_succeeds ->
  exists steps,
    ran env dir w steps /\
    opened (run_events steps)
    = repeat (html_file dir) (length (emailList (globals w))).
Proof.
  intros Hb.
  destruct (main_run env dir
              (fun _ _ a => opened (events a) = [html_file dir])
              (fun r w => attempt_opens_template_once env dir r w Hb) w)
    as (steps & Hsteps & Hrun).
  exists steps. split; [exact Hrun|].
  exact (opened_run _ _ _ _ (fun r a H => H) Hsteps).
Qed.

Lemma template_is_opened_once_per_recipient_witness :
  exists steps,
    ran env_delivers scenario_dir (start ["a@x.com"; "b@x.com"]) steps /\
    opened (run_events steps)
    = ["/srv/marketing/index.html"; "/srv/marketing/index.html"].
Proof.
  apply (template_is_opened_once_per_recipient
           env_delivers scenario_dir (start ["a@x.com"; "b@x.com"])).
  obeyed.
Defined.
